(** * rmm::mr::cuda_memory_resource

    A shallow embedding of [include/rmm/mr/device/cuda_memory_resource.hpp]:
    the [device_memory_resource] that forwards allocation and deallocation
    to [cudaMalloc] / [cudaFree] and memory queries to [cudaMemGetInfo].

    The class is a thin wrapper, so the embedding keeps three things apart:
    - the C++ object model the equality test needs (dynamic types and
      [dynamic_cast]),
    - the CUDA runtime, an external collaborator taken as a parameter,
    - the methods of the class, written in a small state-and-failure monad
      in the order the C++ statements run. *)

From Stdlib Require Import ZArith NArith List String Bool Lia.
Import ListNotations.

(** ** C++ object model *)

Module Cpp.

(** A class is named by its qualified name. *)
Definition class_id := string.

(** A polymorphic object as seen through a [device_memory_resource const&]:
    the most-derived class it was constructed as, and the values of its
    non-static data members. *)
Record object := {
  dynamic_type : class_id;
  data_members : list (string * Z)
}.

(** [dynamic_cast<Target const*>(&o)]: the object when [Target] is the
    most-derived class of [o] or one of its public bases, the null pointer
    ([None]) otherwise.  [is_base_of base derived] is the inheritance
    relation of the program, [std::is_base_of<base, derived>]. *)
Definition dynamic_cast (is_base_of : class_id -> class_id -> bool)
    (target : class_id) (o : object) : option object :=
  if is_base_of target (dynamic_type o) then Some o else None.

(** [p != nullptr] on the result of a cast. *)
Definition not_nullptr (p : option object) : bool :=
  match p with Some _ => true | None => false end.

(** What the declarations of the header say about the inheritance relation:
    every class is a base of itself, and a class declared [final] has no
    other derived class. *)
Definition reflexive_hierarchy (is_base_of : class_id -> class_id -> bool) : Prop :=
  forall c, is_base_of c c = true.

Definition final_class (is_base_of : class_id -> class_id -> bool)
    (c : class_id) : Prop :=
  forall d, is_base_of c d = true -> d = c.

End Cpp.

(** ** The CUDA runtime, as the class sees it *)

Module Cuda.

(** [std::size_t] and [void*] are unsigned machine words; the class does no
    arithmetic on either, so no wrap-around arises. *)
Abbreviation size_t := N.
Abbreviation pointer := N.
Definition nullptr : pointer := 0%N.

(** [cudaError_t] is a C enumeration; the two enumerators the error macros
    test for carry the values of the runtime's [driver_types.h]. *)
Abbreviation cudaError_t := Z.
Definition cudaSuccess : cudaError_t := 0%Z.
Definition cudaErrorInvalidValue : cudaError_t := 1%Z.
Definition cudaErrorMemoryAllocation : cudaError_t := 2%Z.

(** The three entry points the class calls.  Output parameters are
    modelled by passing the content of the pointed-to variable in and
    getting its content after the call back, so a runtime that leaves an
    output untouched is expressible.  [allocation_size d p] observes how
    many bytes of device memory are addressable from [p] in state [d]. *)
Record runtime := {
  device : Type;
  cudaMalloc : pointer -> size_t -> device -> cudaError_t * pointer * device;
  cudaFree : pointer -> device -> cudaError_t * device;
  cudaMemGetInfo :
    size_t -> size_t -> device -> cudaError_t * (size_t * size_t) * device;
  allocation_size : device -> pointer -> size_t
}.



End Cuda.

(** ** Failures and the monad of the methods *)

Module Rmm.
Import Cuda.

(** Modelled from the spec: the stream token of [rmm/cuda_stream_view.hpp],
    which is not part of the sources at hand.  The spec makes it an opaque
    ordering-context identifier; it is modelled by the stream handle. *)
Record cuda_stream_view := { stream_handle : Z }.

(** Modelled from the spec: the failure taxonomy of [rmm/detail/error.hpp],
    which is not part of the sources at hand.  [OutOfMemory] is the
    native allocator being unable to satisfy a request, [InvalidArgument]
    is reserved for resources layered on top, [DeviceError] is any other
    error status the native call reported (device fault, driver error; for
    [do_get_mem_info] the header documents it as [rmm::cuda_error]). *)
Inductive failure :=
| OutOfMemory
| InvalidArgument
| DeviceError (status : cudaError_t).

(** How a method call ends: it returns, it throws a typed failure to its
    immediate caller, or the process is terminated by a failed assertion. *)
Inductive outcome (A : Type) :=
| Returned (a : A)
| Failed (f : failure)
| Terminated.
Arguments Returned {A} a.
Arguments Failed {A} f.
Arguments Terminated {A}.

Section Monad.
Variable rt : runtime.

(** The state a method can touch: the object it is called on and the
    device behind the runtime. *)
Record state := { this : Cpp.object; dev : device rt }.

Definition M (A : Type) := state -> outcome A * state.

Definition ret {A} (a : A) : M A := fun st => (Returned a, st).

Definition bind {A B} (m : M A) (k : A -> M B) : M B :=
  fun st =>
    match m st with
    | (Returned a, st') => k a st'
    | (Failed f, st') => (Failed f, st')
    | (Terminated, st') => (Terminated, st')
    end.

Definition throw {A} (f : failure) : M A := fun st => (Failed f, st).
Definition abort {A} : M A := fun st => (Terminated, st).

(** A call into the runtime: it acts on the device only. *)
Definition native {A} (call : device rt -> A * device rt) : M A :=
  fun st =>
    let (a, d) := call (dev st) in
    (Returned a, {| this := this st; dev := d |}).

(** Modelled from the spec: [RMM_CUDA_TRY_ALLOC] of [rmm/detail/error.hpp],
    which is not part of the sources at hand.  An allocation the native
    allocator cannot satisfy surfaces as [OutOfMemory]; any other error
    status surfaces as a failure distinct from it. *)
Definition RMM_CUDA_TRY_ALLOC {A} (call : M (cudaError_t * A)) : M A :=
  bind call (fun r =>
    let (error, out) := r in
    if Z.eqb error cudaSuccess then ret out
    else if Z.eqb error cudaErrorMemoryAllocation then throw OutOfMemory
    else throw (DeviceError error)).

(** Modelled from the spec: [RMM_CUDA_TRY] of [rmm/detail/error.hpp],
    which is not part of the sources at hand.  An error status of the
    native call is surfaced to the caller as a device error. *)
Definition RMM_CUDA_TRY {A} (call : M (cudaError_t * A)) : M A :=
  bind call (fun r =>
    let (error, out) := r in
    if Z.eqb error cudaSuccess then ret out
    else throw (DeviceError error)).

(** Modelled from the spec: [RMM_ASSERT_CUDA_SUCCESS] of
    [rmm/detail/error.hpp], which is not part of the sources at hand.
    An error status of the native call is a fatal assertion failure. *)
Definition RMM_ASSERT_CUDA_SUCCESS (call : M cudaError_t) : M unit :=
  bind call (fun status =>
    if Z.eqb status cudaSuccess then ret tt else abort).

End Monad.

Arguments ret {rt A} a.
Arguments bind {rt A B} m k.
Arguments throw {rt A} f.
Arguments abort {rt A}.
Arguments native {rt A} call.
Arguments RMM_CUDA_TRY_ALLOC {rt A} call.
Arguments RMM_CUDA_TRY {rt A} call.
Arguments RMM_ASSERT_CUDA_SUCCESS {rt} call.
Arguments Build_state {rt} this dev.
Arguments this {rt} s.
Arguments dev {rt} s.

Declare Scope rmm_scope.
Delimit Scope rmm_scope with rmm.
Notation "x <- m ;; k" := (bind m (fun x => k))
  (at level 100, m at next level, right associativity) : rmm_scope.

End Rmm.

(** ** The class *)

Module cuda_memory_resource.
Import Cuda Rmm.
Local Open Scope rmm_scope.

Definition class_name : Cpp.class_id := "rmm::mr::cuda_memory_resource"%string.

(** The class declares no data member; a default-constructed instance. *)
Definition construct : Cpp.object :=
  {| Cpp.dynamic_type := class_name; Cpp.data_members := [] |}.

Definition instance (o : Cpp.object) : Prop := Cpp.dynamic_type o = class_name.

Section Methods.
Variable is_base_of : Cpp.class_id -> Cpp.class_id -> bool.
Variable rt : runtime.

(** [bool supports_streams() const noexcept { return false; }] *)
Definition supports_streams : M rt bool := ret false.

(** [bool supports_get_mem_info() const noexcept { return true; }] *)
Definition supports_get_mem_info : M rt bool := ret true.

(** [void* ptr{nullptr}; RMM_CUDA_TRY_ALLOC(cudaMalloc(&ptr, bytes)); return ptr;] *)
Definition do_allocate (bytes : size_t) (stream : cuda_stream_view)
    : M rt pointer :=
  let ptr := nullptr in
  ptr <- RMM_CUDA_TRY_ALLOC
           (native (fun d =>
              let '(error, ptr', d') := cudaMalloc rt ptr bytes d in
              ((error, ptr'), d'))) ;;
  ret ptr.

(** [RMM_ASSERT_CUDA_SUCCESS(cudaFree(ptr));] *)
Definition do_deallocate (ptr : pointer) (bytes : size_t)
    (stream : cuda_stream_view) : M rt unit :=
  RMM_ASSERT_CUDA_SUCCESS (native (cudaFree rt ptr)).

(** [return dynamic_cast<cuda_memory_resource const*>(&other) != nullptr;] *)
Definition do_is_equal (other : Cpp.object) : M rt bool :=
  ret (Cpp.not_nullptr (Cpp.dynamic_cast is_base_of class_name other)).

(** [std::size_t free_size{}; std::size_t total_size{};
     RMM_CUDA_TRY(cudaMemGetInfo(&free_size, &total_size));
     return std::make_pair(free_size, total_size);] *)
Definition do_get_mem_info (stream : cuda_stream_view)
    : M rt (size_t * size_t) :=
  let free_size := 0%N in
  let total_size := 0%N in
  sizes <- RMM_CUDA_TRY
             (native (fun d =>
                let '(error, sizes, d') :=
                  cudaMemGetInfo rt free_size total_size d in
                ((error, sizes), d'))) ;;
  ret (fst sizes, snd sizes).

End Methods.

(** *** The defaulted special members

    All six are declared [= default]: construction and assignment act
    member by member and call nothing.  A constructor makes an object whose
    most-derived class is [cuda_memory_resource]; an assignment keeps the
    class of the object assigned to.  The members are plain values, so a move
    leaves its source as it was and is the copy. *)

(** [cuda_memory_resource(cuda_memory_resource const&) = default;] *)
Definition copy_construct (other : Cpp.object) : Cpp.object :=
  {| Cpp.dynamic_type := class_name;
     Cpp.data_members := Cpp.data_members other |}.

(** [cuda_memory_resource(cuda_memory_resource&&) = default;] *)
Definition move_construct (other : Cpp.object) : Cpp.object :=
  {| Cpp.dynamic_type := class_name;
     Cpp.data_members := Cpp.data_members other |}.

(** [cuda_memory_resource& operator=(cuda_memory_resource const&) = default;]
    The result is the object assigned to, after the assignment. *)
Definition copy_assign (self other : Cpp.object) : Cpp.object :=
  {| Cpp.dynamic_type := Cpp.dynamic_type self;
     Cpp.data_members := Cpp.data_members other |}.

(** [cuda_memory_resource& operator=(cuda_memory_resource&&) = default;] *)
Definition move_assign (self other : Cpp.object) : Cpp.object :=
  {| Cpp.dynamic_type := Cpp.dynamic_type self;
     Cpp.data_members := Cpp.data_members other |}.

End cuda_memory_resource.


(** ** Observations used to state the properties *)

Module Observe.
Import Cuda Rmm.
Local Open Scope N_scope.


(** The pair the native query reports for a device state. *)
Definition accounting (rt : runtime) (d : device rt) : option (size_t * size_t) :=
  let '(error, sizes, _) := cudaMemGetInfo rt 0 0 d in
  if Z.eqb error cudaSuccess then Some sizes else None.

(** Two readings agree up to the bookkeeping granularity [g] of the native
    allocator: same total, free counters at most [g] apart. *)
Definition within (g : N) (a b : size_t * size_t) : Prop :=
  fst a <= fst b + g /\ fst b <= fst a + g /\ snd a = snd b.

Definition same_accounting (g : N) (a b : option (size_t * size_t)) : Prop :=
  match a, b with
  | Some x, Some y => within g x y
  | None, None => True
  | _, _ => False
  end.

(** *** A contract of the native primitives

    The class adds no check of its own to what the runtime hands back.  The
    contract below speaks of the native entry points only, called the way the
    class calls them: [cudaMalloc] on a variable that holds the null
    pointer. *)

(** Freeing what a successful non-empty [cudaMalloc] has just returned
    succeeds and restores the free/total reading up to [g]. *)
Definition native_roundtrip_contract (rt : runtime) (g : N) : Prop :=
  forall d n p d1,
    0 < n ->
    cudaMalloc rt nullptr n d = (cudaSuccess, p, d1) ->
    exists d2,
      cudaFree rt p d1 = (cudaSuccess, d2) /\
      same_accounting g (accounting rt d) (accounting rt d2).

(** What a call does that the rest of the program can see, the receiver
    apart: how it ended and the device it left. *)
Definition effect {rt : runtime} {A : Type} (r : outcome A * state rt)
    : outcome A * device rt :=
  (fst r, dev (snd r)).

End Observe.

(** ** A simulated device

    A small runtime that can be run: a pool of [capacity] bytes handed out in
    granules of 256 bytes, with a table of the live blocks.  It serves to run
    the methods on concrete inputs. *)

Module SimDevice.
Import Cuda.
Local Open Scope N_scope.

Record sim := {
  capacity : N;
  live : list (pointer * size_t);
  cursor : N
}.

Definition granules (n : size_t) : N := (n + 255) / 256.

Definition footprint (n : size_t) : N := 256 * granules n.

Fixpoint used (blocks : list (pointer * size_t)) : N :=
  match blocks with
  | [] => 0
  | (_, n) :: rest => footprint n + used rest
  end.

Fixpoint find_block (p : pointer) (blocks : list (pointer * size_t))
    : option size_t :=
  match blocks with
  | [] => None
  | (q, n) :: rest => if p =? q then Some n else find_block p rest
  end.

Fixpoint remove_block (p : pointer) (blocks : list (pointer * size_t))
    : option (list (pointer * size_t)) :=
  match blocks with
  | [] => None
  | (q, n) :: rest =>
      if p =? q then Some rest
      else option_map (cons (q, n)) (remove_block p rest)
  end.

(** What a request for zero bytes is answered with. *)
Definition zero_size_sentinel : pointer := 256.

Definition cudaErrorUnknown : cudaError_t := 999%Z.

(** Blocks are handed out from the third granule on; the first holds the
    null address, the second the sentinel. *)
Definition block_address (granule : N) : pointer := 256 * (granule + 2).

Definition sim_malloc (devPtr : pointer) (size : size_t) (d : sim)
    : cudaError_t * pointer * sim :=
  if size =? 0 then (cudaSuccess, zero_size_sentinel, d)
  else if capacity d <? used (live d) + footprint size
  then (cudaErrorMemoryAllocation, devPtr, d)
  else
    let p := block_address (cursor d) in
    (cudaSuccess, p,
     {| capacity := capacity d;
        live := (p, size) :: live d;
        cursor := cursor d + granules size |}).

Definition sim_free (p : pointer) (d : sim) : cudaError_t * sim :=
  if p =? nullptr then (cudaSuccess, d)
  else if p =? zero_size_sentinel then (cudaSuccess, d)
  else
    match remove_block p (live d) with
    | Some rest =>
        (cudaSuccess,
         {| capacity := capacity d; live := rest; cursor := cursor d |})
    | None => (cudaErrorInvalidValue, d)
    end.

Definition sim_mem_info (free_size total_size : size_t) (d : sim)
    : cudaError_t * (size_t * size_t) * sim :=
  if capacity d <? used (live d)
  then (cudaErrorUnknown, (free_size, total_size), d)
  else (cudaSuccess, (capacity d - used (live d), capacity d), d).

Definition sim_allocation_size (d : sim) (p : pointer) : size_t :=
  match find_block p (live d) with
  | Some n => footprint n
  | None => 0
  end.

Definition sim_runtime : runtime :=
  {| device := sim;
     cudaMalloc := sim_malloc;
     cudaFree := sim_free;
     cudaMemGetInfo := sim_mem_info;
     allocation_size := sim_allocation_size |}.

(** A device of 1 MiB with nothing allocated, one of 1 KiB, and one whose
    block table has outgrown its capacity. *)
Definition fresh : sim := {| capacity := 1048576; live := []; cursor := 0 |}.
Definition small : sim := {| capacity := 1024; live := []; cursor := 0 |}.
Definition broken : sim := {| capacity := 0; live := [(512, 256)]; cursor := 1 |}.

(** A hierarchy of memory resources: [device_memory_resource] is the base of
    every class, and no class has another base. *)
Definition sim_is_base_of (base derived : Cpp.class_id) : bool :=
  String.eqb base derived
  || String.eqb base "rmm::mr::device_memory_resource"%string.

Definition pool : Cpp.object :=
  {| Cpp.dynamic_type := "rmm::mr::pool_memory_resource"%string;
     Cpp.data_members := [("maximum_pool_size_"%string, 4096%Z)] |}.

(** The state of a program holding the resource [o] on the device [d]. *)
Definition holding (o : Cpp.object) (d : sim) : Rmm.state sim_runtime :=
  @Rmm.Build_state sim_runtime o d.

Definition default_stream : Rmm.cuda_stream_view := {| Rmm.stream_handle := 0 |}.
Definition per_thread_stream : Rmm.cuda_stream_view := {| Rmm.stream_handle := 2 |}.

End SimDevice.

(** ** A device with asynchronous faults

    A second runtime that can be run, closer to a device that executes work
    behind the back of the host.  A fault raised by earlier work is
    [pending] until a call that waits for the device finds it: [cudaFree]
    does, [cudaMalloc] and [cudaMemGetInfo] do not.  Once reported the fault
    is [sticky]: every later call answers with it.  A request for zero bytes
    is granted with the null pointer, and on a healthy device freeing the
    null pointer does nothing. *)

Module FaultyDevice.
Import Cuda.
Local Open Scope N_scope.

Record faulty := {
  memory : SimDevice.sim;
  pending : cudaError_t;
  sticky : cudaError_t
}.


Definition faulty_malloc (devPtr : pointer) (size : size_t) (d : faulty)
    : cudaError_t * pointer * faulty :=
  if negb (Z.eqb (sticky d) cudaSuccess) then (sticky d, devPtr, d)
  else if size =? 0 then (cudaSuccess, nullptr, d)
  else
    let '(error, p, m) := SimDevice.sim_malloc devPtr size (memory d) in
    (error, p, {| memory := m; pending := pending d; sticky := sticky d |}).

Definition faulty_free (p : pointer) (d : faulty) : cudaError_t * faulty :=
  if negb (Z.eqb (sticky d) cudaSuccess) then (sticky d, d)
  else if negb (Z.eqb (pending d) cudaSuccess)
  then (pending d,
        {| memory := memory d; pending := cudaSuccess; sticky := pending d |})
  else
    let '(error, m) := SimDevice.sim_free p (memory d) in
    (error, {| memory := m; pending := pending d; sticky := sticky d |}).

Definition faulty_mem_info (free_size total_size : size_t) (d : faulty)
    : cudaError_t * (size_t * size_t) * faulty :=
  if negb (Z.eqb (sticky d) cudaSuccess)
  then (sticky d, (free_size, total_size), d)
  else
    let '(error, sizes, m) :=
      SimDevice.sim_mem_info free_size total_size (memory d) in
    (error, sizes, {| memory := m; pending := pending d; sticky := sticky d |}).

Definition faulty_runtime : runtime :=
  {| device := faulty;
     cudaMalloc := faulty_malloc;
     cudaFree := faulty_free;
     cudaMemGetInfo := faulty_mem_info;
     allocation_size := fun d => SimDevice.sim_allocation_size (memory d) |}.


(** The state of a program holding the resource [o] on the device [d]. *)
Definition holding (o : Cpp.object) (d : faulty) : Rmm.state faulty_runtime :=
  @Rmm.Build_state faulty_runtime o d.

End FaultyDevice.


(** * Properties *)

Import Cuda Rmm Observe.
Import cuda_memory_resource.
Local Open Scope N_scope.

(** ** Running the methods on the simulated device *)

Example allocate_on_fresh_device :
  do_allocate SimDevice.sim_runtime 1000 SimDevice.default_stream
    (SimDevice.holding construct SimDevice.fresh)
  = (Returned 512,
     SimDevice.holding construct
       {| SimDevice.capacity := 1048576;
          SimDevice.live := [(512, 1000)];
          SimDevice.cursor := 4 |}).
Proof. reflexivity. Qed.

Example allocate_too_much :
  fst (do_allocate SimDevice.sim_runtime 4096 SimDevice.default_stream
         (SimDevice.holding construct SimDevice.small))
  = Failed OutOfMemory.
Proof. reflexivity. Qed.

Example deallocate_unknown_pointer :
  fst (do_deallocate SimDevice.sim_runtime 768 64 SimDevice.default_stream
         (SimDevice.holding construct SimDevice.fresh))
  = Terminated.
Proof. reflexivity. Qed.

Example mem_info_on_fresh_device :
  fst (do_get_mem_info SimDevice.sim_runtime SimDevice.default_stream
         (SimDevice.holding construct SimDevice.fresh))
  = Returned (1048576, 1048576).
Proof. reflexivity. Qed.

Example is_equal_pool :
  fst (do_is_equal SimDevice.sim_is_base_of SimDevice.sim_runtime SimDevice.pool
         (SimDevice.holding construct SimDevice.fresh))
  = Returned false.
Proof. reflexivity. Qed.

(** ** What each method does, in terms of the native call it makes *)

Section Runs.
Variable rt : runtime.

Lemma do_allocate_run (bytes : size_t) (s : cuda_stream_view) (st : state rt) :
  do_allocate rt bytes s st =
  let '(error, p, d1) := cudaMalloc rt nullptr bytes (dev st) in
  ((if Z.eqb error cudaSuccess then Returned p
    else if Z.eqb error cudaErrorMemoryAllocation then Failed OutOfMemory
    else Failed (DeviceError error)),
   {| this := this st; dev := d1 |}).
Proof.
  unfold do_allocate, RMM_CUDA_TRY_ALLOC, bind, native, ret, throw.
  destruct (cudaMalloc rt nullptr bytes (dev st)) as [[error p] d1].
  destruct (Z.eqb error cudaSuccess); [reflexivity|].
  destruct (Z.eqb error cudaErrorMemoryAllocation); reflexivity.
Qed.

Lemma do_deallocate_run (ptr : pointer) (bytes : size_t) (s : cuda_stream_view)
    (st : state rt) :
  do_deallocate rt ptr bytes s st =
  let '(status, d1) := cudaFree rt ptr (dev st) in
  ((if Z.eqb status cudaSuccess then Returned tt else Terminated),
   {| this := this st; dev := d1 |}).
Proof.
  unfold do_deallocate, RMM_ASSERT_CUDA_SUCCESS, bind, native, ret, abort.
  destruct (cudaFree rt ptr (dev st)) as [status d1].
  destruct (Z.eqb status cudaSuccess); reflexivity.
Qed.

Lemma do_get_mem_info_run (s : cuda_stream_view) (st : state rt) :
  do_get_mem_info rt s st =
  let '(error, sizes, d1) := cudaMemGetInfo rt 0 0 (dev st) in
  ((if Z.eqb error cudaSuccess then Returned sizes
    else Failed (DeviceError error)),
   {| this := this st; dev := d1 |}).
Proof.
  unfold do_get_mem_info, RMM_CUDA_TRY, bind, native, ret, throw.
  destruct (cudaMemGetInfo rt 0 0 (dev st)) as [[error [f t]] d1].
  destruct (Z.eqb error cudaSuccess); reflexivity.
Qed.

(** A [do_allocate] that returned made exactly one native request, which
    succeeded; the pointer is the one the runtime stored. *)
Lemma do_allocate_returned (bytes : size_t) (s : cuda_stream_view)
    (st st1 : state rt) (p : pointer) :
  do_allocate rt bytes s st = (Returned p, st1) ->
  cudaMalloc rt nullptr bytes (dev st) = (cudaSuccess, p, dev st1)
  /\ this st1 = this st.
Proof.
  rewrite do_allocate_run.
  destruct (cudaMalloc rt nullptr bytes (dev st)) as [[error q] d1].
  destruct (Z.eqb_spec error cudaSuccess) as [-> | _].
  - intros H; inversion H; subst; auto.
  - destruct (Z.eqb error cudaErrorMemoryAllocation); discriminate.
Qed.


End Runs.

(** ** Facts about the simulated device *)

Lemma block_address_high (c : N) : 512 <= SimDevice.block_address c.
Proof. unfold SimDevice.block_address. lia. Qed.

Lemma sim_hierarchy_reflexive : Cpp.reflexive_hierarchy SimDevice.sim_is_base_of.
Proof.
  intros c. unfold SimDevice.sim_is_base_of.
  rewrite String.eqb_refl. reflexivity.
Qed.

Lemma sim_hierarchy_final : Cpp.final_class SimDevice.sim_is_base_of class_name.
Proof.
  intros d H. unfold SimDevice.sim_is_base_of in H.
  apply orb_true_iff in H. destruct H as [H | H].
  - apply String.eqb_eq in H. symmetry. exact H.
  - vm_compute in H. discriminate H.
Qed.

Lemma sim_roundtrip_contract : native_roundtrip_contract SimDevice.sim_runtime 0.
Proof.
  intros d n p d1 Hn H.
  cbn [cudaMalloc SimDevice.sim_runtime] in H. unfold SimDevice.sim_malloc in H.
  destruct (N.eqb_spec n 0) as [-> | _]; [lia|].
  destruct (SimDevice.capacity d <? _); [discriminate H|].
  injection H as <- <-.
  assert (Hhigh := block_address_high (SimDevice.cursor d)).
  exists {| SimDevice.capacity := SimDevice.capacity d;
            SimDevice.live := SimDevice.live d;
            SimDevice.cursor := SimDevice.cursor d + SimDevice.granules n |}.
  split.
  - cbn [cudaFree SimDevice.sim_runtime]. unfold SimDevice.sim_free.
    destruct (N.eqb_spec (SimDevice.block_address (SimDevice.cursor d)) nullptr)
      as [E | _]; [unfold nullptr in E; lia|].
    destruct (N.eqb_spec (SimDevice.block_address (SimDevice.cursor d))
                SimDevice.zero_size_sentinel)
      as [E | _]; [unfold SimDevice.zero_size_sentinel in E; lia|].
    cbn [SimDevice.live SimDevice.remove_block SimDevice.capacity SimDevice.cursor].
    rewrite N.eqb_refl. reflexivity.
  - unfold accounting. cbn [cudaMemGetInfo SimDevice.sim_runtime].
    unfold SimDevice.sim_mem_info. cbn [SimDevice.live SimDevice.capacity].
    destruct (SimDevice.capacity d <? SimDevice.used (SimDevice.live d)).
    + exact I.
    + unfold same_accounting, within.
      replace (Z.eqb cudaSuccess cudaSuccess) with true by reflexivity.
      cbn [fst snd]. lia.
Qed.

(** ** Equality of resources *)

Lemma do_is_equal_run (is_base_of : Cpp.class_id -> Cpp.class_id -> bool)
    (rt : runtime) (other : Cpp.object) (st : state rt) :
  do_is_equal is_base_of rt other st
  = (Returned (is_base_of class_name (Cpp.dynamic_type other)), st).
Proof.
  unfold do_is_equal, ret, Cpp.dynamic_cast, Cpp.not_nullptr.
  destruct (is_base_of class_name (Cpp.dynamic_type other)); reflexivity.
Qed.

Lemma do_is_equal_true_iff (is_base_of : Cpp.class_id -> Cpp.class_id -> bool)
    (rt : runtime) (other : Cpp.object) (st : state rt) :
  Cpp.reflexive_hierarchy is_base_of ->
  Cpp.final_class is_base_of class_name ->
  (fst (do_is_equal is_base_of rt other st) = Returned true <-> instance other).
Proof.
  intros Hrefl Hfinal. rewrite do_is_equal_run. cbn [fst]. unfold instance.
  split.
  - intros H. apply Hfinal. congruence.
  - intros ->. rewrite Hrefl. reflexivity.
Qed.


(** C1: for any two instances [a] and [b] of [cuda_memory_resource],
    [a.do_is_equal(b)] returns true and changes nothing.  The answer is
    decided by a test on the dynamic type of the argument: whatever the
    receiver, [do_is_equal] answers true exactly when the dynamic type of its
    argument is [cuda_memory_resource]; and no data member takes part, since
    two arguments of one dynamic type get the same answer whatever their
    members and whatever the receivers. *)
Theorem do_is_equal_same_class :
  forall (is_base_of : Cpp.class_id -> Cpp.class_id -> bool) (rt : runtime)
         (a b : Cpp.object) (d : device rt),
    Cpp.reflexive_hierarchy is_base_of ->
    Cpp.final_class is_base_of class_name ->
    instance a ->
    instance b ->
    do_is_equal is_base_of rt b (Build_state a d) = (Returned true, Build_state a d)
    /\ (forall (a' b' : Cpp.object) (d' : device rt),
          fst (do_is_equal is_base_of rt b' (Build_state a' d')) = Returned true
          <-> Cpp.dynamic_type b' = class_name)
    /\ (forall (a' a'' b' b'' : Cpp.object) (d' d'' : device rt),
          Cpp.dynamic_type b' = Cpp.dynamic_type b'' ->
          fst (do_is_equal is_base_of rt b' (Build_state a' d'))
          = fst (do_is_equal is_base_of rt b'' (Build_state a'' d''))).
Proof.
  intros is_base_of rt a b d Hrefl Hfinal _ Hb.
  split; [|split].
  - rewrite do_is_equal_run. unfold instance in Hb. rewrite Hb, Hrefl.
    reflexivity.
  - intros a' b' d'.
    exact (do_is_equal_true_iff is_base_of rt b' (Build_state a' d') Hrefl Hfinal).
  - intros a' a'' b' b'' d' d'' Hsame.
    rewrite !do_is_equal_run. cbn [fst]. rewrite Hsame. reflexivity.
Qed.

Lemma do_is_equal_same_class_witness :
  Cpp.reflexive_hierarchy SimDevice.sim_is_base_of
  /\ Cpp.final_class SimDevice.sim_is_base_of class_name
  /\ instance construct
  /\ instance {| Cpp.dynamic_type := class_name;
                 Cpp.data_members := [("tag"%string, 7%Z)] |}
  /\ do_is_equal SimDevice.sim_is_base_of SimDevice.sim_runtime
       {| Cpp.dynamic_type := class_name;
          Cpp.data_members := [("tag"%string, 7%Z)] |}
       (SimDevice.holding construct SimDevice.fresh)
     = (Returned true, SimDevice.holding construct SimDevice.fresh)
  /\ (fst (do_is_equal SimDevice.sim_is_base_of SimDevice.sim_runtime
             SimDevice.pool (SimDevice.holding construct SimDevice.fresh))
      = Returned true
      <-> Cpp.dynamic_type SimDevice.pool = class_name).
Proof.
  split; [exact sim_hierarchy_reflexive|].
  split; [exact sim_hierarchy_final|].
  split; [reflexivity|].
  split; [reflexivity|].
  split.
  - apply (do_is_equal_same_class SimDevice.sim_is_base_of SimDevice.sim_runtime
             construct
             {| Cpp.dynamic_type := class_name;
                Cpp.data_members := [("tag"%string, 7%Z)] |}
             SimDevice.fresh sim_hierarchy_reflexive sim_hierarchy_final
             eq_refl eq_refl).
  - apply (do_is_equal_same_class SimDevice.sim_is_base_of SimDevice.sim_runtime
             construct
             {| Cpp.dynamic_type := class_name;
                Cpp.data_members := [("tag"%string, 7%Z)] |}
             SimDevice.fresh sim_hierarchy_reflexive sim_hierarchy_final
             eq_refl eq_refl).
Defined.

(** C10: for an argument whose dynamic type is not [cuda_memory_resource],
    [do_is_equal] returns false: the class is final, so the cast to it
    succeeds for no other dynamic type. *)
Theorem do_is_equal_other_class :
  forall (is_base_of : Cpp.class_id -> Cpp.class_id -> bool) (rt : runtime)
         (other : Cpp.object) (st : state rt),
    Cpp.final_class is_base_of class_name ->
    Cpp.dynamic_type other <> class_name ->
    do_is_equal is_base_of rt other st = (Returned false, st).
Proof.
  intros is_base_of rt other st Hfinal Hother.
  unfold do_is_equal, ret, Cpp.dynamic_cast.
  destruct (is_base_of class_name (Cpp.dynamic_type other)) eqn:E.
  - apply Hfinal in E. contradiction.
  - reflexivity.
Qed.

Lemma do_is_equal_other_class_witness :
  Cpp.final_class SimDevice.sim_is_base_of class_name
  /\ Cpp.dynamic_type SimDevice.pool <> class_name
  /\ do_is_equal SimDevice.sim_is_base_of SimDevice.sim_runtime SimDevice.pool
       (SimDevice.holding construct SimDevice.fresh)
     = (Returned false, SimDevice.holding construct SimDevice.fresh).
Proof.
  split; [exact sim_hierarchy_final|].
  split; [discriminate|].
  apply (do_is_equal_other_class SimDevice.sim_is_base_of SimDevice.sim_runtime
           SimDevice.pool (SimDevice.holding construct SimDevice.fresh)
           sim_hierarchy_final).
  discriminate.
Defined.

(** ** Failures *)

(** C2: when the native allocation reports an error, [do_allocate] ends in a
    typed failure handed to its caller, with the device as the native call
    left it; it does not terminate the program.  The failure is
    [OutOfMemory] exactly when the native status is
    [cudaErrorMemoryAllocation]; every other error status [e] surfaces as
    [DeviceError e], which is a different failure. *)
Theorem do_allocate_out_of_memory :
  forall (rt : runtime) (bytes : size_t) (s : cuda_stream_view) (st : state rt)
         (e : cudaError_t) (p : pointer) (d1 : device rt),
    cudaMalloc rt nullptr bytes (dev st) = (e, p, d1) ->
    e <> cudaSuccess ->
    exists f : failure,
      do_allocate rt bytes s st = (Failed f, Build_state (this st) d1)
      /\ (f = OutOfMemory <-> e = cudaErrorMemoryAllocation)
      /\ (e <> cudaErrorMemoryAllocation -> f = DeviceError e).
Proof.
  intros rt bytes s st e p d1 Hcall He.
  rewrite do_allocate_run, Hcall.
  destruct (Z.eqb_spec e cudaSuccess) as [E | _]; [contradiction|].
  destruct (Z.eqb_spec e cudaErrorMemoryAllocation) as [E | E].
  - exists OutOfMemory. repeat split; auto. intros; contradiction.
  - exists (DeviceError e). repeat split; auto.
    + discriminate.
    + intros; contradiction.
Qed.

Lemma do_allocate_out_of_memory_witness :
  exists f : failure,
    do_allocate SimDevice.sim_runtime 4096 SimDevice.default_stream
      (SimDevice.holding construct SimDevice.small)
    = (Failed f, SimDevice.holding construct SimDevice.small)
    /\ (f = OutOfMemory <-> cudaErrorMemoryAllocation = cudaErrorMemoryAllocation)
    /\ (cudaErrorMemoryAllocation <> cudaErrorMemoryAllocation ->
        f = DeviceError cudaErrorMemoryAllocation).
Proof.
  apply (do_allocate_out_of_memory SimDevice.sim_runtime 4096
           SimDevice.default_stream
           (SimDevice.holding construct SimDevice.small)
           cudaErrorMemoryAllocation nullptr SimDevice.small).
  - reflexivity.
  - discriminate.
Defined.

(** C3: when the native free reports an error, [do_deallocate] terminates
    the program: the call neither returns nor throws a failure its caller
    could handle. *)
Theorem do_deallocate_failure_fatal :
  forall (rt : runtime) (ptr : pointer) (bytes : size_t) (s : cuda_stream_view)
         (st : state rt) (e : cudaError_t) (d1 : device rt),
    cudaFree rt ptr (dev st) = (e, d1) ->
    e <> cudaSuccess ->
    do_deallocate rt ptr bytes s st = (Terminated, Build_state (this st) d1)
    /\ fst (do_deallocate rt ptr bytes s st) <> Returned tt
    /\ (forall f : failure, fst (do_deallocate rt ptr bytes s st) <> Failed f).
Proof.
  intros rt ptr bytes s st e d1 Hcall He.
  rewrite do_deallocate_run, Hcall.
  destruct (Z.eqb_spec e cudaSuccess) as [E | _]; [contradiction|].
  repeat split; simpl; try discriminate.
Qed.

Lemma do_deallocate_failure_fatal_witness :
  do_deallocate SimDevice.sim_runtime 768 64 SimDevice.default_stream
    (SimDevice.holding construct SimDevice.fresh)
  = (Terminated, SimDevice.holding construct SimDevice.fresh)
  /\ fst (do_deallocate SimDevice.sim_runtime 768 64 SimDevice.default_stream
            (SimDevice.holding construct SimDevice.fresh)) <> Returned tt
  /\ (forall f : failure,
        fst (do_deallocate SimDevice.sim_runtime 768 64 SimDevice.default_stream
               (SimDevice.holding construct SimDevice.fresh)) <> Failed f).
Proof.
  apply (do_deallocate_failure_fatal SimDevice.sim_runtime 768 64
           SimDevice.default_stream
           (SimDevice.holding construct SimDevice.fresh)
           cudaErrorInvalidValue SimDevice.fresh).
  - reflexivity.
  - discriminate.
Defined.

(** ** The stream argument *)

(** C4: [supports_streams] returns false, and the stream argument has no
    effect: for any two streams, [do_allocate] with the same size, and
    [do_deallocate] with the same pointer and size, end the same way in the
    same state. *)
Theorem stream_argument_ignored :
  forall (rt : runtime) (st : state rt),
    supports_streams rt st = (Returned false, st)
    /\ (forall (bytes : size_t) (s1 s2 : cuda_stream_view),
          do_allocate rt bytes s1 st = do_allocate rt bytes s2 st)
    /\ (forall (ptr : pointer) (bytes : size_t) (s1 s2 : cuda_stream_view),
          do_deallocate rt ptr bytes s1 st = do_deallocate rt ptr bytes s2 st).
Proof.
  intros rt st. split; [reflexivity|]. split.
  - intros bytes s1 s2. rewrite !do_allocate_run. reflexivity.
  - intros ptr bytes s1 s2. rewrite !do_deallocate_run. reflexivity.
Qed.

(** ** Memory information *)

(** C5: [supports_get_mem_info] returns true.  [do_get_mem_info] makes one
    native query, with both output variables zero-initialised: when the
    query succeeds the pair it stored is returned as it is; when it reports
    an error status [e] the call fails to its caller with [DeviceError e],
    which is not [OutOfMemory], and the program goes on. *)
Theorem do_get_mem_info_native_pair :
  forall (rt : runtime) (s : cuda_stream_view) (st : state rt)
         (e : cudaError_t) (sizes : size_t * size_t) (d1 : device rt),
    cudaMemGetInfo rt 0 0 (dev st) = (e, sizes, d1) ->
    supports_get_mem_info rt st = (Returned true, st)
    /\ (e = cudaSuccess ->
        do_get_mem_info rt s st = (Returned sizes, Build_state (this st) d1))
    /\ (e <> cudaSuccess ->
        do_get_mem_info rt s st = (Failed (DeviceError e), Build_state (this st) d1)
        /\ DeviceError e <> OutOfMemory).
Proof.
  intros rt s st e sizes d1 Hcall.
  split; [reflexivity|].
  rewrite do_get_mem_info_run, Hcall.
  split.
  - intros ->. reflexivity.
  - intros He. destruct (Z.eqb_spec e cudaSuccess) as [E | _]; [contradiction|].
    split; [reflexivity | discriminate].
Qed.

Lemma do_get_mem_info_native_pair_witness :
  supports_get_mem_info SimDevice.sim_runtime
    (SimDevice.holding construct SimDevice.broken)
  = (Returned true, SimDevice.holding construct SimDevice.broken)
  /\ (SimDevice.cudaErrorUnknown = cudaSuccess ->
      do_get_mem_info SimDevice.sim_runtime SimDevice.per_thread_stream
        (SimDevice.holding construct SimDevice.broken)
      = (Returned (0, 0), SimDevice.holding construct SimDevice.broken))
  /\ (SimDevice.cudaErrorUnknown <> cudaSuccess ->
      do_get_mem_info SimDevice.sim_runtime SimDevice.per_thread_stream
        (SimDevice.holding construct SimDevice.broken)
      = (Failed (DeviceError SimDevice.cudaErrorUnknown),
         SimDevice.holding construct SimDevice.broken)
      /\ DeviceError SimDevice.cudaErrorUnknown <> OutOfMemory).
Proof.
  apply (do_get_mem_info_native_pair SimDevice.sim_runtime
           SimDevice.per_thread_stream
           (SimDevice.holding construct SimDevice.broken)
           SimDevice.cudaErrorUnknown (0, 0) SimDevice.broken).
  reflexivity.
Defined.

(** ** Allocation and deallocation *)









(** ** Statelessness *)

(** C9: the class declares no data member, and no method writes to the
    object it is called on: after each of the six operations, however it
    ends, the resource object is what it was before the call.  Nothing about
    an allocation is kept in it. *)
Theorem resource_is_stateless :
  forall (is_base_of : Cpp.class_id -> Cpp.class_id -> bool) (rt : runtime)
         (st : state rt) (bytes : size_t) (ptr : pointer)
         (s : cuda_stream_view) (other : Cpp.object),
    Cpp.data_members construct = []
    /\ this (snd (supports_streams rt st)) = this st
    /\ this (snd (supports_get_mem_info rt st)) = this st
    /\ this (snd (do_allocate rt bytes s st)) = this st
    /\ this (snd (do_deallocate rt ptr bytes s st)) = this st
    /\ this (snd (do_is_equal is_base_of rt other st)) = this st
    /\ this (snd (do_get_mem_info rt s st)) = this st.
Proof.
  intros is_base_of rt st bytes ptr s other.
  rewrite do_allocate_run, do_deallocate_run, do_get_mem_info_run.
  destruct (cudaMalloc rt nullptr bytes (dev st)) as [[e1 p1] d1].
  destruct (cudaFree rt ptr (dev st)) as [e2 d2].
  destruct (cudaMemGetInfo rt 0 0 (dev st)) as [[e3 sizes] d3].
  repeat split.
Qed.

(** * Further properties of the class *)

(** ** What a call that returns has done *)

Lemma do_deallocate_returned (rt : runtime) (ptr : pointer) (bytes : size_t)
    (s : cuda_stream_view) (st st1 : state rt) :
  do_deallocate rt ptr bytes s st = (Returned tt, st1) ->
  cudaFree rt ptr (dev st) = (cudaSuccess, dev st1) /\ this st1 = this st.
Proof.
  rewrite do_deallocate_run.
  destruct (cudaFree rt ptr (dev st)) as [status d1].
  destruct (Z.eqb_spec status cudaSuccess) as [-> | _].
  - intros H; inversion H; subst; auto.
  - discriminate.
Qed.

Lemma do_get_mem_info_returned (rt : runtime) (s : cuda_stream_view)
    (st st1 : state rt) (sizes : size_t * size_t) :
  do_get_mem_info rt s st = (Returned sizes, st1) ->
  cudaMemGetInfo rt 0 0 (dev st) = (cudaSuccess, sizes, dev st1)
  /\ this st1 = this st.
Proof.
  rewrite do_get_mem_info_run.
  destruct (cudaMemGetInfo rt 0 0 (dev st)) as [[error sz] d1].
  destruct (Z.eqb_spec error cudaSuccess) as [-> | _].
  - intros H; inversion H; subst; auto.
  - discriminate.
Qed.

Lemma state_eta (rt : runtime) (st : state rt) :
  Build_state (this st) (dev st) = st.
Proof. destruct st; reflexivity. Qed.

(** X3: each of the three methods that call the runtime returns exactly
    when its one native call reports [cudaSuccess], and then hands back what
    the call stored, unchanged: [do_allocate] requests exactly [bytes] into a
    variable holding the null pointer and returns the pointer found there
    afterwards, whatever it is; [do_deallocate] frees exactly [ptr];
    [do_get_mem_info] returns the stored pair. *)
Theorem returns_exactly_on_native_success :
  forall (rt : runtime) (s : cuda_stream_view) (st st1 : state rt)
         (bytes : size_t) (ptr : pointer) (sizes : size_t * size_t),
    (do_allocate rt bytes s st = (Returned ptr, st1)
     <-> cudaMalloc rt nullptr bytes (dev st) = (cudaSuccess, ptr, dev st1)
         /\ this st1 = this st)
    /\ (do_deallocate rt ptr bytes s st = (Returned tt, st1)
        <-> cudaFree rt ptr (dev st) = (cudaSuccess, dev st1)
            /\ this st1 = this st)
    /\ (do_get_mem_info rt s st = (Returned sizes, st1)
        <-> cudaMemGetInfo rt 0 0 (dev st) = (cudaSuccess, sizes, dev st1)
            /\ this st1 = this st).
Proof.
  intros rt s st st1 bytes ptr sizes. repeat split.
  - apply do_allocate_returned in H. tauto.
  - apply do_allocate_returned in H. tauto.
  - intros [Hcall Hthis]. rewrite do_allocate_run, Hcall, <- Hthis.
    simpl. rewrite state_eta. reflexivity.
  - apply do_deallocate_returned in H. tauto.
  - apply do_deallocate_returned in H. tauto.
  - intros [Hcall Hthis]. rewrite do_deallocate_run, Hcall, <- Hthis.
    simpl. rewrite state_eta. reflexivity.
  - apply do_get_mem_info_returned in H. tauto.
  - apply do_get_mem_info_returned in H. tauto.
  - intros [Hcall Hthis]. rewrite do_get_mem_info_run, Hcall, <- Hthis.
    simpl. rewrite state_eta. reflexivity.
Qed.

(** ** Arguments and receivers that do not matter *)

(** X2: what a call does depends on the device and on the arguments handed
    to the runtime, and on nothing else.  The receiver never matters;
    [do_deallocate] takes no notice of [bytes] or of the stream, so a size
    that differs from the allocated one goes unnoticed; [do_get_mem_info] and
    [do_allocate] take no notice of the stream. *)
Theorem receiver_and_unused_arguments :
  forall (rt : runtime) (a b : Cpp.object) (d : device rt)
         (ptr : pointer) (bytes bytes' : size_t) (s s' : cuda_stream_view),
    effect (do_deallocate rt ptr bytes s (Build_state a d))
    = effect (do_deallocate rt ptr bytes' s' (Build_state b d))
    /\ effect (do_allocate rt bytes s (Build_state a d))
       = effect (do_allocate rt bytes s' (Build_state b d))
    /\ effect (do_get_mem_info rt s (Build_state a d))
       = effect (do_get_mem_info rt s' (Build_state b d)).
Proof.
  intros rt a b d ptr bytes bytes' s s'.
  rewrite !do_deallocate_run, !do_allocate_run, !do_get_mem_info_run.
  cbn [dev this].
  destruct (cudaFree rt ptr d) as [e1 d1].
  destruct (cudaMalloc rt nullptr bytes d) as [[e2 p2] d2].
  destruct (cudaMemGetInfo rt 0 0 d) as [[e3 sizes] d3].
  repeat split.
Qed.

(** X1: memory allocated through one resource can be given back through
    another.  On a runtime whose free of a freshly allocated non-empty block
    succeeds and restores the free/total reading up to [g], a [do_allocate]
    called on [a] that returned [ptr] is followed by a [do_deallocate] of
    [ptr] called on any [b], on any stream, that returns, leaves [b] as it
    was, and leaves the reading what it was before the allocation, up to
    [g]. *)
Theorem deallocate_through_another_instance :
  forall (rt : runtime) (g : N) (a b : Cpp.object) (d : device rt)
         (bytes : size_t) (s s' : cuda_stream_view)
         (ptr : pointer) (st1 : state rt),
    native_roundtrip_contract rt g ->
    0 < bytes ->
    do_allocate rt bytes s (Build_state a d) = (Returned ptr, st1) ->
    exists d2 : device rt,
      do_deallocate rt ptr bytes s' (Build_state b (dev st1))
      = (Returned tt, Build_state b d2)
      /\ same_accounting g (accounting rt d) (accounting rt d2).
Proof.
  intros rt g a b d bytes s s' ptr st1 Hnative Hbytes Halloc.
  apply do_allocate_returned in Halloc. destruct Halloc as [Hmalloc _].
  cbn [dev] in Hmalloc.
  destruct (Hnative _ _ _ _ Hbytes Hmalloc) as [d2 [Hfree Hsame]].
  exists d2. split.
  - rewrite do_deallocate_run. cbn [dev this]. rewrite Hfree. reflexivity.
  - exact Hsame.
Qed.

Lemma deallocate_through_another_instance_witness :
  native_roundtrip_contract SimDevice.sim_runtime 0
  /\ 0 < 1000
  /\ exists d2 : SimDevice.sim,
       do_deallocate SimDevice.sim_runtime 512 1000 SimDevice.per_thread_stream
         (SimDevice.holding
            {| Cpp.dynamic_type := class_name;
               Cpp.data_members := [("tag"%string, 7%Z)] |}
            {| SimDevice.capacity := 1048576;
               SimDevice.live := [(512, 1000)];
               SimDevice.cursor := 4 |})
       = (Returned tt,
          SimDevice.holding
            {| Cpp.dynamic_type := class_name;
               Cpp.data_members := [("tag"%string, 7%Z)] |} d2)
       /\ same_accounting 0
            (accounting SimDevice.sim_runtime SimDevice.fresh)
            (accounting SimDevice.sim_runtime d2).
Proof.
  split; [exact sim_roundtrip_contract|].
  split; [reflexivity|].
  apply (deallocate_through_another_instance SimDevice.sim_runtime 0
           construct
           {| Cpp.dynamic_type := class_name;
              Cpp.data_members := [("tag"%string, 7%Z)] |}
           SimDevice.fresh 1000
           SimDevice.default_stream SimDevice.per_thread_stream 512
           (SimDevice.holding construct
              {| SimDevice.capacity := 1048576;
                 SimDevice.live := [(512, 1000)];
                 SimDevice.cursor := 4 |})
           sim_roundtrip_contract).
  - reflexivity.
  - reflexivity.
Defined.

(** ** How a call can end *)

(** X7: the ways each method can end.  The three [noexcept] methods always
    return and leave the whole state, device included, alone.
    [do_allocate] and [do_get_mem_info] return or throw, and never terminate
    the program; [do_deallocate] returns or terminates, and never throws. *)
Theorem possible_outcomes :
  forall (is_base_of : Cpp.class_id -> Cpp.class_id -> bool) (rt : runtime)
         (st : state rt) (bytes : size_t) (ptr : pointer)
         (s : cuda_stream_view) (other : Cpp.object),
    (exists v, supports_streams rt st = (Returned v, st))
    /\ (exists v, supports_get_mem_info rt st = (Returned v, st))
    /\ (exists v, do_is_equal is_base_of rt other st = (Returned v, st))
    /\ fst (do_allocate rt bytes s st) <> Terminated
    /\ fst (do_get_mem_info rt s st) <> Terminated
    /\ (forall f : failure, fst (do_deallocate rt ptr bytes s st) <> Failed f).
Proof.
  intros is_base_of rt st bytes ptr s other.
  split; [eexists; reflexivity|].
  split; [eexists; reflexivity|].
  split; [eexists; reflexivity|].
  rewrite do_allocate_run, do_get_mem_info_run, do_deallocate_run.
  destruct (cudaMalloc rt nullptr bytes (dev st)) as [[e1 p1] d1].
  destruct (cudaMemGetInfo rt 0 0 (dev st)) as [[e2 sizes] d2].
  destruct (cudaFree rt ptr (dev st)) as [e3 d3].
  cbn [fst].
  split; [|split].
  - destruct (Z.eqb e1 cudaSuccess); [discriminate|].
    destruct (Z.eqb e1 cudaErrorMemoryAllocation); discriminate.
  - destruct (Z.eqb e2 cudaSuccess); discriminate.
  - intros f. destruct (Z.eqb e3 cudaSuccess); discriminate.
Qed.

(** ** Equality as a relation *)

(** X4: in a hierarchy where [cuda_memory_resource] is final, [do_is_equal]
    answers true for exactly the arguments whose dynamic type is
    [cuda_memory_resource], and false for all others. *)
Theorem do_is_equal_decides_class :
  forall (is_base_of : Cpp.class_id -> Cpp.class_id -> bool) (rt : runtime)
         (other : Cpp.object) (st : state rt),
    Cpp.reflexive_hierarchy is_base_of ->
    Cpp.final_class is_base_of class_name ->
    (fst (do_is_equal is_base_of rt other st) = Returned true
     <-> instance other)
    /\ (fst (do_is_equal is_base_of rt other st) = Returned false
        <-> ~ instance other).
Proof.
  intros is_base_of rt other st Hrefl Hfinal.
  assert (Hiff := do_is_equal_true_iff is_base_of rt other st Hrefl Hfinal).
  split; [exact Hiff|].
  rewrite do_is_equal_run in *. cbn [fst] in *.
  destruct (is_base_of class_name (Cpp.dynamic_type other)).
  - split; [discriminate|]. intros Hn. exfalso. apply Hn, Hiff. reflexivity.
  - split; [|reflexivity]. intros _ Hi. apply Hiff in Hi. discriminate.
Qed.

Lemma do_is_equal_decides_class_witness :
  Cpp.reflexive_hierarchy SimDevice.sim_is_base_of
  /\ Cpp.final_class SimDevice.sim_is_base_of class_name
  /\ (fst (do_is_equal SimDevice.sim_is_base_of SimDevice.sim_runtime
             SimDevice.pool (SimDevice.holding construct SimDevice.fresh))
      = Returned true <-> instance SimDevice.pool)
  /\ (fst (do_is_equal SimDevice.sim_is_base_of SimDevice.sim_runtime
             SimDevice.pool (SimDevice.holding construct SimDevice.fresh))
      = Returned false <-> ~ instance SimDevice.pool).
Proof.
  split; [exact sim_hierarchy_reflexive|].
  split; [exact sim_hierarchy_final|].
  apply (do_is_equal_decides_class SimDevice.sim_is_base_of
           SimDevice.sim_runtime SimDevice.pool
           (SimDevice.holding construct SimDevice.fresh)
           sim_hierarchy_reflexive sim_hierarchy_final).
Defined.

(** X6: equality never holds one way only.  When [a], an instance, finds
    [b] equal, [b] is an instance too, so that [b]'s own [do_is_equal] is this
    method, and it finds [a] equal; and whatever [b] finds equal, [a] finds
    equal. *)
Theorem do_is_equal_symmetric_transitive :
  forall (is_base_of : Cpp.class_id -> Cpp.class_id -> bool) (rt : runtime)
         (a b c : Cpp.object) (d : device rt),
    Cpp.reflexive_hierarchy is_base_of ->
    Cpp.final_class is_base_of class_name ->
    instance a ->
    fst (do_is_equal is_base_of rt b (Build_state a d)) = Returned true ->
    instance b
    /\ fst (do_is_equal is_base_of rt a (Build_state b d)) = Returned true
    /\ (fst (do_is_equal is_base_of rt c (Build_state b d)) = Returned true ->
        fst (do_is_equal is_base_of rt c (Build_state a d)) = Returned true).
Proof.
  intros is_base_of rt a b c d Hrefl Hfinal Ha Hab.
  split; [|split].
  - apply (do_is_equal_true_iff is_base_of rt b (Build_state a d) Hrefl Hfinal). exact Hab.
  - apply (do_is_equal_true_iff is_base_of rt a (Build_state b d) Hrefl Hfinal). exact Ha.
  - rewrite !do_is_equal_run. cbn [fst]. intros H. exact H.
Qed.

Lemma do_is_equal_symmetric_transitive_witness :
  Cpp.reflexive_hierarchy SimDevice.sim_is_base_of
  /\ Cpp.final_class SimDevice.sim_is_base_of class_name
  /\ instance construct
  /\ instance (copy_construct construct)
  /\ fst (do_is_equal SimDevice.sim_is_base_of SimDevice.sim_runtime construct
            (SimDevice.holding (copy_construct construct) SimDevice.fresh))
     = Returned true
  /\ (fst (do_is_equal SimDevice.sim_is_base_of SimDevice.sim_runtime
             SimDevice.pool
             (SimDevice.holding (copy_construct construct) SimDevice.fresh))
      = Returned true ->
      fst (do_is_equal SimDevice.sim_is_base_of SimDevice.sim_runtime
             SimDevice.pool (SimDevice.holding construct SimDevice.fresh))
      = Returned true).
Proof.
  split; [exact sim_hierarchy_reflexive|].
  split; [exact sim_hierarchy_final|].
  split; [reflexivity|].
  apply (do_is_equal_symmetric_transitive SimDevice.sim_is_base_of
           SimDevice.sim_runtime construct (copy_construct construct)
           SimDevice.pool SimDevice.fresh
           sim_hierarchy_reflexive sim_hierarchy_final).
  - reflexivity.
  - reflexivity.
Defined.

(** ** Copies *)

(** X5: the defaulted copy and move constructors and assignments give value
    semantics.  Built from, or assigned from, an instance [a], the resulting
    object is [a] itself as a value: same class, same members; it compares
    equal with [a] in both directions. *)
Theorem copies_are_equal_instances :
  forall (is_base_of : Cpp.class_id -> Cpp.class_id -> bool) (rt : runtime)
         (a self r : Cpp.object) (d : device rt),
    Cpp.reflexive_hierarchy is_base_of ->
    instance a ->
    instance self ->
    In r [copy_construct a; move_construct a;
          copy_assign self a; move_assign self a] ->
    r = a
    /\ fst (do_is_equal is_base_of rt r (Build_state a d)) = Returned true
    /\ fst (do_is_equal is_base_of rt a (Build_state r d)) = Returned true.
Proof.
  intros is_base_of rt a self r d Hrefl Ha Hself Hr.
  assert (Hra : r = a).
  { unfold instance in *. destruct a as [ta ma], self as [ts ms].
    cbn [Cpp.dynamic_type] in *. subst ta ts.
    cbn in Hr. intuition (subst; reflexivity). }
  subst r. split; [reflexivity|].
  rewrite !do_is_equal_run. cbn [fst]. rewrite Ha, Hrefl. auto.
Qed.

Lemma copies_are_equal_instances_witness :
  Cpp.reflexive_hierarchy SimDevice.sim_is_base_of
  /\ instance construct
  /\ instance {| Cpp.dynamic_type := class_name;
                 Cpp.data_members := [("tag"%string, 7%Z)] |}
  /\ copy_assign
       {| Cpp.dynamic_type := class_name;
          Cpp.data_members := [("tag"%string, 7%Z)] |} construct
     = construct
  /\ fst (do_is_equal SimDevice.sim_is_base_of SimDevice.sim_runtime
            (copy_assign
               {| Cpp.dynamic_type := class_name;
                  Cpp.data_members := [("tag"%string, 7%Z)] |} construct)
            (SimDevice.holding construct SimDevice.fresh))
     = Returned true
  /\ fst (do_is_equal SimDevice.sim_is_base_of SimDevice.sim_runtime construct
            (SimDevice.holding
               (copy_assign
                  {| Cpp.dynamic_type := class_name;
                     Cpp.data_members := [("tag"%string, 7%Z)] |} construct)
               SimDevice.fresh))
     = Returned true.
Proof.
  split; [exact sim_hierarchy_reflexive|].
  split; [reflexivity|].
  split; [reflexivity|].
  apply (copies_are_equal_instances SimDevice.sim_is_base_of
           SimDevice.sim_runtime construct
           {| Cpp.dynamic_type := class_name;
              Cpp.data_members := [("tag"%string, 7%Z)] |}
           (copy_assign
              {| Cpp.dynamic_type := class_name;
                 Cpp.data_members := [("tag"%string, 7%Z)] |} construct)
           SimDevice.fresh sim_hierarchy_reflexive eq_refl eq_refl).
  right. right. left. reflexivity.
Defined.
